(** * ai_prompt: a shallow embedding of the terminal prompt utility

    The program under study is [src/ai_prompt.py]: a command dispatcher
    ([main]) over two JSON stores ([load_config], [load_keys]), three
    provider adapters ([query_openai], [query_openrouter],
    [query_anthropic]) and a model lister ([list_models]).

    Python values are embedded as the inductive [value]; exceptions as
    [exn]; a function that may raise returns a [result]; a function that
    performs I/O runs in the monad [M], which reads an environment of
    oracles (network, prompt files, standard input) and threads the two
    stores, the operator console and the output trace. *)

From Stdlib Require Import String Ascii List ZArith Bool Lia PrimFloat.
From Stdlib Require Import Sorting.Sorted Sorting.Permutation.
Import ListNotations.

Open Scope string_scope.
Open Scope list_scope.

Set Warnings "-register-all".

(* ================================================================== *)
(** ** Python values and what the code does with them *)

Module Py.

(** The values [json.load] produces, which are also the values the
    program passes around: [None], booleans, integers, floats, strings,
    lists and string-keyed dictionaries.  A dictionary keeps its entries
    in insertion order. *)
Inductive value : Type :=
| VNone
| VBool (b : bool)
| VInt (n : Z)
| VFloat (f : float)
| VStr (s : string)
| VList (items : list value)
| VDict (entries : list (string * value)).

(** The exceptions that occur in the program.  All but [SystemExit]
    are subclasses of [Exception]. *)
Inductive exn : Type :=
| FileNotFoundError (path : string)
| PermissionError (path : string)
| IsADirectoryError (path : string)
| JSONDecodeError
| UnicodeDecodeError
| RecursionError
| ValueError
| KeyError (key : value)
| IndexError
| TypeError
| AttributeError (attr : string)
| UnboundLocalError (name : string)
| RequestException (msg : string)
| HTTPError (status : Z)
| OSError (msg : string)
| EOFError
| SystemExit (code : Z).

(** [isinstance(e, Exception)]: what a clause [except Exception] catches. *)
Definition is_Exception (e : exn) : bool :=
  match e with
  | SystemExit _ => false
  | _ => true
  end.

Inductive result (A : Type) : Type :=
| Ok (a : A)
| Raise (e : exn).
Arguments Ok {A} a.
Arguments Raise {A} e.

Definition rbind {A B} (r : result A) (k : A -> result B) : result B :=
  match r with
  | Ok a => k a
  | Raise e => Raise e
  end.

Notation "'let?' x ':=' r 'in' k" := (rbind r (fun x => k))
  (at level 10, x name, r at level 100, k at level 200).

(** [bool(v)]: Python truth value testing. *)
Definition truthy (v : value) : bool :=
  match v with
  | VNone => false
  | VBool b => b
  | VInt n => negb (Z.eqb n 0)
  | VFloat f => negb (PrimFloat.eqb f PrimFloat.zero)
  | VStr s => negb (String.eqb s "")
  | VList items => match items with [] => false | _ :: _ => true end
  | VDict entries => match entries with [] => false | _ :: _ => true end
  end.

(** [a or b], with [b] evaluated only when [a] is falsy. *)
Definition py_or (a : value) (b : result value) : result value :=
  if truthy a then Ok a else b.

(** An optional command-line string: [None] when the option is not given. *)
Definition of_opt (o : option string) : value :=
  match o with
  | Some s => VStr s
  | None => VNone
  end.

Fixpoint lookup (k : string) (entries : list (string * value)) : option value :=
  match entries with
  | [] => None
  | (k', v) :: rest => if String.eqb k k' then Some v else lookup k rest
  end.

(** [v[k]] for a string key [k]. *)
Definition getitem (v : value) (k : string) : result value :=
  match v with
  | VDict entries =>
      match lookup k entries with
      | Some x => Ok x
      | None => Raise (KeyError (VStr k))
      end
  | _ => Raise TypeError
  end.

(** [v[i]] for a non-negative integer literal [i]. *)
Definition getitem_at (v : value) (i : nat) : result value :=
  match v with
  | VList items =>
      match nth_error items i with
      | Some x => Ok x
      | None => Raise IndexError
      end
  | VStr s =>
      match String.get i s with
      | Some c => Ok (VStr (String c ""))
      | None => Raise IndexError
      end
  | VDict _ => Raise (KeyError (VInt (Z.of_nat i)))
  | _ => Raise TypeError
  end.

Fixpoint update (k : string) (x : value) (entries : list (string * value))
  : list (string * value) :=
  match entries with
  | [] => [(k, x)]
  | (k', v) :: rest =>
      if String.eqb k k' then (k', x) :: rest else (k', v) :: update k x rest
  end.

(** [v[k] = x] for a string key [k]: the container after the assignment. *)
Definition setitem (v : value) (k : string) (x : value) : result value :=
  match v with
  | VDict entries => Ok (VDict (update k x entries))
  | _ => Raise TypeError
  end.

(** The characters of a string, each a string of its own.  The program
    only ever subscripts such an item with a string key, which raises
    [TypeError] whatever the character is. *)
Fixpoint chars (s : string) : list value :=
  match s with
  | EmptyString => []
  | String c rest => VStr (String c "") :: chars rest
  end.

(** The items a [for] loop over [v] visits. *)
Definition iterate (v : value) : result (list value) :=
  match v with
  | VList items => Ok items
  | VDict entries => Ok (map (fun kv => VStr (fst kv)) entries)
  | VStr s => Ok (chars s)
  | _ => Raise TypeError
  end.

(** [x in [s1, s2, ...]] for a list of string literals. *)
Definition in_strings (x : value) (l : list string) : bool :=
  match x with
  | VStr s => existsb (String.eqb s) l
  | _ => false
  end.

(** *** Strings *)

Definition lower_char (c : ascii) : ascii :=
  let n := nat_of_ascii c in
  if (Nat.leb 65 n && Nat.leb n 90)%bool then ascii_of_nat (n + 32) else c.

(** [s.lower()] on the ASCII letters.  The only use in the program is the
    test that the lowered text contains [gpt]; no other character lowers
    to one of these three letters, so the test agrees with Python on
    every text. *)
Fixpoint lower (s : string) : string :=
  match s with
  | EmptyString => EmptyString
  | String c rest => String (lower_char c) (lower rest)
  end.

(** [needle in hay] for two strings. *)
Fixpoint contains (needle hay : string) : bool :=
  if String.prefix needle hay then true
  else match hay with
       | EmptyString => false
       | String _ rest => contains needle rest
       end.

Fixpoint insert_sorted (x : string) (l : list string) : list string :=
  match l with
  | [] => [x]
  | y :: rest => if String.leb x y then x :: l else y :: insert_sorted x rest
  end.

(** [sorted(l)] on a list of strings: ascending in the order of [str],
    which compares character by character. *)
Fixpoint sorted (l : list string) : list string :=
  match l with
  | [] => []
  | x :: rest => insert_sorted x (sorted rest)
  end.

Definition nl : string := String (ascii_of_nat 10) EmptyString.

End Py.
Import Py.

(* ================================================================== *)
(** ** The world the program runs in *)

Module World.

(** A formatted text, as an f-string builds it: literal pieces, the
    [str()] of a value, the [str()] of an exception.  Values other than
    strings are kept as they are rather than rendered. *)
Inductive frag : Type :=
| Lit (s : string)
| Fmt (v : value)
| FmtExn (e : exn).

Definition text := list frag.

(** An outbound request of the [requests] library. *)
Inductive request : Type :=
| POST (url : string) (headers : list (string * text)) (json : value)
| GET (url : string) (headers : list (string * text)).

(** A [requests.Response]: the status code, the raw body, and what
    [response.json()] makes of the body ([None]: it does not decode). *)
Record Response : Type := {
  status_code : Z;
  body_text : string;
  body_json : option value
}.

(** What the program does that can be observed from outside. *)
Inductive event : Type :=
| Print (line : text)
| PrintHelp
| Sent (r : request)
| Getpass (prompt : text)
| Input (prompt : text).

(** One of the two per-user JSON files, by what
    [with open(path, 'r') as f: json.load(f)] does on it:
    - [Missing]: nothing is at the path, [open] raises
      [FileNotFoundError];
    - [Malformed]: the file is text that is not a JSON document,
      [json.load] raises [json.JSONDecodeError];
    - [Unreadable e]: something is at the path and [open] or [json.load]
      raises [e]: [PermissionError] or [IsADirectoryError] from [open],
      [UnicodeDecodeError] for bytes that are not text in the encoding,
      [RecursionError] for nesting deeper than the interpreter's limit,
      [ValueError] for an integer literal longer than the digit limit;
    - [Holds v]: [json.load] gives [v].
    A file written by [json.dump(v, f)] is in the last state. *)
Inductive stored : Type :=
| Missing
| Malformed
| Unreadable (e : exn)
| Holds (v : value).

(** What the program reads and cannot change: other files by path,
    standard input, the remote services. *)
Record Env : Type := {
  read_text : string -> result string;
  stdin_isatty : bool;
  stdin_text : string;
  http : request -> result Response
}.

(** What the program changes: the two stores, the lines the operator
    has still to type, and the trace of events so far. *)
Record State : Type := {
  config_file : stored;
  keys_file : stored;
  console : list string;
  trace : list event
}.

Definition M (A : Type) : Type := Env -> State -> result A * State.

Definition ret {A} (a : A) : M A := fun _ st => (Ok a, st).

Definition raise {A} (e : exn) : M A := fun _ st => (Raise e, st).

Definition bind {A B} (m : M A) (k : A -> M B) : M B :=
  fun env st =>
    match m env st with
    | (Ok a, st') => k a env st'
    | (Raise e, st') => (Raise e, st')
    end.

Definition lift {A} (r : result A) : M A := fun _ st => (r, st).

Notation "x <- m ;; k" := (bind m (fun x => k))
  (at level 61, m at next level, right associativity).
Notation "m ;; k" := (bind m (fun _ => k))
  (at level 61, right associativity).

(** [try: x = m  except C as e: h e  else: k x], where [catches] tells
    the exceptions of class [C].  The handler and the continuation run
    outside the protected block. *)
Definition try_except {A B} (catches : exn -> bool)
  (m : M A) (h : exn -> M B) (k : A -> M B) : M B :=
  fun env st =>
    match m env st with
    | (Ok a, st') => k a env st'
    | (Raise e, st') =>
        if catches e then h e env st' else (Raise e, st')
    end.

(** Reading a local variable that an earlier statement may not have
    assigned. *)
Definition local_var {A} (name : string) (cell : option A) : M A :=
  match cell with
  | Some a => ret a
  | None => raise (UnboundLocalError name)
  end.

(** The state after the events [evs] have been added to the trace. *)
Definition log (st : State) (evs : list event) : State :=
  {| config_file := config_file st; keys_file := keys_file st;
     console := console st; trace := trace st ++ evs |}.

Definition emit (ev : event) : M unit := fun _ st => (Ok tt, log st [ev]).

Definition print (line : text) : M unit := emit (Print line).

Definition print_help : M unit := emit PrintHelp.

Definition when (b : bool) (m : M unit) : M unit := if b then m else ret tt.

Fixpoint for_each {A} (l : list A) (body : A -> M unit) : M unit :=
  match l with
  | [] => ret tt
  | x :: rest => body x ;; for_each rest body
  end.

(** [requests.post(url, headers=headers, json=data)] and
    [requests.get(url, headers=headers)]: the request leaves, and the
    service answers or the transport raises. *)
Definition requests_send (r : request) : M Response :=
  emit (Sent r) ;; (fun env st => (http env r, st)).

(** [response.raise_for_status()]. *)
Definition raise_for_status (r : Response) : M unit :=
  if ((400 <=? status_code r) && (status_code r <? 600))%Z
  then raise (HTTPError (status_code r))
  else ret tt.

(** [bool(response)], which [requests] defines as [response.ok]. *)
Definition response_ok (r : Response) : bool :=
  negb ((400 <=? status_code r) && (status_code r <? 600))%Z.

(** [response.json()]. *)
Definition response_json (r : Response) : M value :=
  match body_json r with
  | Some v => ret v
  | None => raise JSONDecodeError
  end.

(** One line typed by the operator, or [EOFError] at end of input. *)
Definition read_line : M string :=
  fun _ st =>
    match console st with
    | [] => (Raise EOFError, st)
    | l :: rest =>
        (Ok l, {| config_file := config_file st; keys_file := keys_file st;
                  console := rest; trace := trace st |})
    end.

(** [getpass.getpass(prompt)] and [input(prompt)]. *)
Definition getpass (prompt : text) : M string :=
  emit (Getpass prompt) ;; read_line.

Definition input (prompt : text) : M string :=
  emit (Input prompt) ;; read_line.

Definition get_config_file : M stored := fun _ st => (Ok (config_file st), st).

Definition get_keys_file : M stored := fun _ st => (Ok (keys_file st), st).

Definition put_config_file (c : stored) : M unit :=
  fun _ st =>
    (Ok tt, {| config_file := c; keys_file := keys_file st;
               console := console st; trace := trace st |}).

Definition put_keys_file (c : stored) : M unit :=
  fun _ st =>
    (Ok tt, {| config_file := config_file st; keys_file := c;
               console := console st; trace := trace st |}).

(** [with open(path, 'r') as f: json.load(f)] on a store. *)
Definition json_load (path : string) (get : M stored) : M value :=
  c <- get ;;
  match c with
  | Missing => raise (FileNotFoundError path)
  | Malformed => raise JSONDecodeError
  | Unreadable e => raise e
  | Holds v => ret v
  end.

(** [with open(path, 'r') as f: f.read()] on any other file. *)
Definition open_read (path : string) : M string :=
  fun env st => (read_text env path, st).

(** [os.path.exists(path)] on a store. *)
Definition path_exists (get : M stored) : M bool :=
  c <- get ;;
  ret (match c with Missing => false | _ => true end).

(** [with open(path, 'w') as f: json.dump(v, f)] on a store.  The
    program writes a store only after it found it absent or after
    [json_load] on it returned or raised one of the two exceptions
    [load_keys] catches, and only values that serialise; the write
    replaces whatever was there. *)
Definition json_dump (put : stored -> M unit) (v : value) : M unit :=
  put (Holds v).

Definition isatty : M bool := fun env st => (Ok (stdin_isatty env), st).

Definition stdin_read : M string := fun env st => (Ok (stdin_text env), st).

End World.
Import World.

(* ================================================================== *)
(** ** The program *)

Definition DEFAULT_CONFIG : value :=
  VDict
    [ ("openai",
       VDict [ ("api_key", VStr "");
               ("default_model", VStr "gpt-3.5-turbo") ]);
      ("openrouter",
       VDict [ ("api_key", VStr "");
               ("default_model", VStr "google/gemini-2.0-pro-exp-02-05:free") ]);
      ("anthropic",
       VDict [ ("api_key", VStr "");
               ("default_model", VStr "claude-3-opus-20240229") ]);
      ("default_provider", VStr "openrouter") ].

(** The two fixed per-user paths; the home directory stays symbolic. *)
Definition CONFIG_PATH : string := "~/.ai_prompt_config.json".
Definition KEYS_PATH : string := "~/.ai_prompt_keys.json".

Definition load_config : M value :=
  present <- path_exists get_config_file ;;
  if present then
    json_load CONFIG_PATH get_config_file
  else
    json_dump put_config_file DEFAULT_CONFIG ;;
    print [Lit "Created default configuration at "; Lit CONFIG_PATH] ;;
    ret DEFAULT_CONFIG.

Definition save_config (config : value) : M unit :=
  json_dump put_config_file config.

(** The classes named by [except (FileNotFoundError, json.JSONDecodeError)]. *)
Definition missing_or_malformed (e : exn) : bool :=
  match e with
  | FileNotFoundError _ => true
  | JSONDecodeError => true
  | _ => false
  end.

Definition load_keys : M value :=
  try_except missing_or_malformed
    (json_load KEYS_PATH get_keys_file)
    (fun _ =>
       ret (VDict [ ("openai", VStr ""); ("openrouter", VStr "");
                    ("anthropic", VStr "") ]))
    ret.

(** The sampling temperature [0.7], as the nearest binary64 value. *)
#[warnings="-inexact-float"]
Definition temperature : float := 0.7%float.

(** *** Provider adapters

    The annotations of the three adapters say [str] for every argument;
    nothing enforces them, and [main] passes what it read from the two
    stores, so [model] and [api_key] are values. *)

(** The request [query_openai] builds: headers, payload, endpoint. *)
Definition openai_request (prompt : string) (model api_key : value) : request :=
  let headers :=
    [ ("Content-Type", [Lit "application/json"]);
      ("Authorization", [Lit "Bearer "; Fmt api_key]) ] in
  let data :=
    VDict [ ("model", model);
            ("messages",
             VList [VDict [("role", VStr "user"); ("content", VStr prompt)]]);
            ("temperature", VFloat temperature) ] in
  POST "https://api.openai.com/v1/chat/completions" headers data.

Definition query_openai (prompt : string) (model api_key : value) : M value :=
  (* [response] is None until the POST returns *)
  let on_error (response : option Response) (e : exn) : M value :=
    print [Lit "Error querying OpenAI: "; FmtExn e] ;;
    match response with
    | Some r =>
        when (response_ok r) (print [Lit "Response: "; Lit (body_text r)])
    | None => ret tt
    end ;;
    ret VNone in
  try_except is_Exception
    (requests_send (openai_request prompt model api_key))
    (on_error None)
    (fun response =>
       try_except is_Exception
         (raise_for_status response ;;
          body <- response_json response ;;
          lift (let? choices := getitem body "choices" in
                let? first := getitem_at choices 0 in
                let? message := getitem first "message" in
                getitem message "content"))
         (on_error (Some response))
         ret).

(** The request [query_openrouter] builds. *)
Definition openrouter_request (prompt : string) (model api_key : value)
  : request :=
  let headers :=
    [ ("Content-Type", [Lit "application/json"]);
      ("Authorization", [Lit "Bearer "; Fmt api_key]);
      ("HTTP-Referer", [Lit "https://github.com/terminal-ai-prompt"]);
      ("X-Title", [Lit "Terminal AI Prompt"]) ] in
  let data :=
    VDict [ ("model", model);
            ("messages",
             VList [VDict [("role", VStr "user"); ("content", VStr prompt)]]);
            ("temperature", VFloat temperature) ] in
  POST "https://openrouter.ai/api/v1/chat/completions" headers data.

Definition query_openrouter (prompt : string) (model api_key : value)
  : M value :=
  (* [response] is not assigned until the POST returns *)
  let on_error (response : option Response) (e : exn) : M value :=
    print [Lit "Error querying OpenRouter: "; FmtExn e] ;;
    r <- local_var "response" response ;;
    print [Lit "Response: "; Lit (body_text r)] ;;
    ret VNone in
  try_except is_Exception
    (requests_send (openrouter_request prompt model api_key))
    (on_error None)
    (fun response =>
       try_except is_Exception
         (raise_for_status response ;;
          body <- response_json response ;;
          lift (let? choices := getitem body "choices" in
                let? first := getitem_at choices 0 in
                let? message := getitem first "message" in
                getitem message "content"))
         (on_error (Some response))
         ret).

(** The request [query_anthropic] builds. *)
Definition anthropic_request (prompt : string) (model api_key : value)
  : request :=
  let headers :=
    [ ("Content-Type", [Lit "application/json"]);
      ("x-api-key", [Fmt api_key]);
      ("anthropic-version", [Lit "2023-06-01"]) ] in
  let data :=
    VDict [ ("model", model);
            ("messages",
             VList [VDict [("role", VStr "user"); ("content", VStr prompt)]]);
            ("max_tokens", VInt 4000);
            ("temperature", VFloat temperature) ] in
  POST "https://api.anthropic.com/v1/messages" headers data.

Definition query_anthropic (prompt : string) (model api_key : value)
  : M value :=
  (* [response] is not assigned until the POST returns *)
  let on_error (response : option Response) (e : exn) : M value :=
    print [Lit "Error querying Anthropic: "; FmtExn e] ;;
    r <- local_var "response" response ;;
    print [Lit "Response: "; Lit (body_text r)] ;;
    ret VNone in
  try_except is_Exception
    (requests_send (anthropic_request prompt model api_key))
    (on_error None)
    (fun response =>
       try_except is_Exception
         (raise_for_status response ;;
          body <- response_json response ;;
          lift (let? content := getitem body "content" in
                let? first := getitem_at content 0 in
                getitem first "text"))
         (on_error (Some response))
         ret).

(** *** Model lister *)

(** [[model["id"] for model in models if "gpt" in model["id"].lower()]]:
    only a string has the method [lower]. *)
Fixpoint chat_models (models : list value) : result (list string) :=
  match models with
  | [] => Ok []
  | model :: rest =>
      let? id := getitem model "id" in
      match id with
      | VStr s =>
          let? tail := chat_models rest in
          Ok (if contains "gpt" (lower s) then s :: tail else tail)
      | _ => Raise (AttributeError "lower")
      end
  end.

(** The catalog endpoint of a provider that has one. *)
Definition models_url (provider : string) : string :=
  if provider =? "openai" then "https://api.openai.com/v1/models"
  else "https://openrouter.ai/api/v1/models".

Definition models_request (provider : string) (api_key : value) : request :=
  GET (models_url provider) [("Authorization", [Lit "Bearer "; Fmt api_key])].

Definition list_models (provider : string) (api_key : value) : M unit :=
  let target : request + M unit :=
    if provider =? "openai" then
      inl (models_request provider api_key)
    else if provider =? "openrouter" then
      inl (models_request provider api_key)
    else if provider =? "anthropic" then
      inr (print [Lit (nl ++ "Available Anthropic models:")] ;;
           for_each [ "claude-3-opus-20240229"; "claude-3-sonnet-20240229";
                      "claude-3-haiku-20240307" ]
             (fun model => print [Lit "  - "; Lit model]))
    else
      inr (print [Lit "Unknown provider: "; Lit provider]) in
  match target with
  | inr finished => finished
  | inl request =>
      (* [response] is not assigned until the GET returns *)
      let on_error (response : option Response) (e : exn) : M unit :=
        print [Lit "Error listing models: "; FmtExn e] ;;
        r <- local_var "response" response ;;
        print [Lit "Response: "; Lit (body_text r)] in
      try_except is_Exception
        (requests_send request)
        (on_error None)
        (fun response =>
           try_except is_Exception
             (raise_for_status response ;;
              models <- response_json response ;;
              if provider =? "openai" then
                data <- lift (getitem models "data") ;;
                entries <- lift (iterate data) ;;
                chat <- lift (chat_models entries) ;;
                print [Lit (nl ++ "Available OpenAI models:")] ;;
                for_each (sorted chat)
                  (fun model => print [Lit "  - "; Lit model])
              else
                print [Lit (nl ++ "Available OpenRouter models:")] ;;
                data <- lift (getitem models "data") ;;
                entries <- lift (iterate data) ;;
                for_each entries
                  (fun model =>
                     id <- lift (getitem model "id") ;;
                     name <- lift (getitem model "name") ;;
                     print [Lit "  - "; Fmt id; Lit " ("; Fmt name; Lit ")"]))
             (on_error (Some response))
             ret)
  end.

(** *** Interactive setup *)

Definition dict_keys (v : value) : list string :=
  match v with
  | VDict entries => map fst entries
  | _ => []
  end.

(** The loop over the providers that asks for each key not yet stored;
    [keys] is the mapping as the loop has changed it so far. *)
Fixpoint enter_keys (providers : list string) (keys : value) : M value :=
  match providers with
  | [] => ret keys
  | provider :: rest =>
      current <- lift (getitem keys provider) ;;
      if negb (truthy current) then
        api_key <- getpass [Lit "Enter "; Lit provider; Lit " API key: "] ;;
        keys' <- lift (setitem keys provider (VStr api_key)) ;;
        enter_keys rest keys'
      else
        enter_keys rest keys
  end.

(** [config[p]["default_model"] = input(f"Default {label} Model
    [{config[p]['default_model']}]: ") or config[p]["default_model"]]:
    the right-hand side first, then the target. *)
Definition enter_model (label p : string) (config : value) : M value :=
  shown <- lift (let? section := getitem config p in
                 getitem section "default_model") ;;
  answer <- input [Lit "Default "; Lit label; Lit " Model ["; Fmt shown;
                   Lit "]: "] ;;
  chosen <- lift (py_or (VStr answer)
                    (let? section := getitem config p in
                     getitem section "default_model")) ;;
  section <- lift (getitem config p) ;;
  section' <- lift (setitem section "default_model" chosen) ;;
  lift (setitem config p section').

Definition setup_config : M unit :=
  config <- load_config ;;
  print [Lit "AI Prompt Configuration Setup"] ;;
  print [Lit "============================"] ;;
  print [Lit (nl ++ "API Key Configuration")] ;;
  print [Lit "======================"] ;;
  let providers :=
    filter (fun p => negb (p =? "default_provider"))
      (dict_keys DEFAULT_CONFIG) in
  keys <- load_keys ;;
  keys <- enter_keys providers keys ;;
  json_dump put_keys_file keys ;;
  print [Lit (nl ++ "Model Configuration")] ;;
  print [Lit "===================="] ;;
  config <- enter_model "OpenAI" "openai" config ;;
  config <- enter_model "OpenRouter" "openrouter" config ;;
  config <- enter_model "Anthropic" "anthropic" config ;;
  print [Lit (nl ++ "Default Provider:")] ;;
  shown <- lift (getitem config "default_provider") ;;
  answer <- input [Lit "Default Provider (openai/openrouter/anthropic) [";
                   Fmt shown; Lit "]: "] ;;
  default_provider <- lift (py_or (VStr answer)
                              (getitem config "default_provider")) ;;
  config <-
    (if in_strings default_provider ["openai"; "openrouter"; "anthropic"]
     then lift (setitem config "default_provider" default_provider)
     else
       current <- lift (getitem config "default_provider") ;;
       print [Lit "Invalid provider '"; Fmt default_provider;
              Lit "'. Using '"; Fmt current; Lit "' as default."] ;;
       ret config) ;;
  save_config config ;;
  print [Lit (nl ++ "Configuration saved to "); Lit CONFIG_PATH].

(** *** Command dispatcher *)

(** The namespace [parser.parse_args] returns. *)
Record Args : Type := {
  arg_model : option string;
  arg_prompt : option string;
  arg_provider : option string;
  arg_setup : bool;
  arg_list_models : bool;
  arg_file : option string
}.

(** [provider in ["openai", "openrouter", "anthropic"]], with the string
    the test found. *)
Definition known_provider (provider : value) : option string :=
  match provider with
  | VStr p =>
      if in_strings provider ["openai"; "openrouter"; "anthropic"]
      then Some p else None
  | _ => None
  end.

(** Lines 265 to 281 of [main]: what is done with the resolved prompt
    ([None] when no source gave one). *)
Definition main_send (args : Args) (config : value) (provider : string)
  (keys : value) (prompt : value) : M unit :=
  match prompt with
  | VStr text =>
      if negb (truthy prompt) then print_help
      else
        model <- lift (py_or (of_opt (arg_model args))
                         (let? section := getitem config provider in
                          getitem section "default_model")) ;;
        response <-
          (if provider =? "openai" then
             api_key <- lift (getitem keys "openai") ;;
             query_openai text model api_key
           else if provider =? "openrouter" then
             api_key <- lift (getitem keys "openrouter") ;;
             query_openrouter text model api_key
           else
             api_key <- lift (getitem keys "anthropic") ;;
             query_anthropic text model api_key) ;;
        when (truthy response) (print [Fmt response])
  | _ => print_help
  end.

(** Lines 251 to 263 of [main]: the prompt from the argument, the file
    or standard input, handed to [main_send]. *)
Definition main_prompt (args : Args) (config : value) (provider : string)
  (keys : value) : M unit :=
  if truthy (of_opt (arg_prompt args)) then
    main_send args config provider keys (of_opt (arg_prompt args))
  else if truthy (of_opt (arg_file args)) then
    match arg_file args with
    | Some path =>
        try_except is_Exception
          (open_read path)
          (fun e => print [Lit "Error reading file: "; FmtExn e])
          (fun text => main_send args config provider keys (VStr text))
    | None => main_send args config provider keys VNone
    end
  else
    tty <- isatty ;;
    if negb tty then
      text <- stdin_read ;;
      main_send args config provider keys (VStr text)
    else
      main_send args config provider keys VNone.

Definition main (args : Args) : M unit :=
  config <- load_config ;;
  if arg_setup args then
    setup_config
  else
    provider <- lift (py_or (of_opt (arg_provider args))
                        (getitem config "default_provider")) ;;
    match known_provider provider with
    | None => print [Lit "Unknown provider: "; Fmt provider]
    | Some provider =>
        keys <- load_keys ;;
        key <- lift (getitem keys provider) ;;
        if negb (truthy key) then
          print [Lit "No API key configured for "; Lit provider;
                 Lit ". Run with --setup to configure."] ;;
          raise (SystemExit 1)
        else if arg_list_models args then
          section <- lift (getitem config provider) ;;
          api_key <- lift (getitem section "api_key") ;;
          list_models provider api_key
        else
          main_prompt args config provider keys
    end.

(** The exit status of the process when [main] ends with [r]. *)
Definition exit_status (r : result unit) : Z :=
  match r with
  | Ok _ => 0
  | Raise (SystemExit code) => code
  | Raise _ => 1
  end.

(** The requests among the events of a trace, in order. *)
Fixpoint sent_requests (t : list event) : list request :=
  match t with
  | [] => []
  | Sent r :: rest => r :: sent_requests rest
  | _ :: rest => sent_requests rest
  end.

(* ================================================================== *)
(** ** The vocabulary of the statements

    What the theorems below say about the program is said with these
    definitions: the ones that name a piece of the code are built from
    it, the others follow the words of the specification. *)

(** *** Stores *)

(** The known providers. *)
Definition providers : list string := ["openai"; "openrouter"; "anthropic"].

(** The mapping [load_keys] falls back to. *)
Definition default_keys : value :=
  VDict [("openai", VStr ""); ("openrouter", VStr ""); ("anthropic", VStr "")].

(** [p in keys]: the mapping has an entry for [p]. *)
Definition has_entry (keys : value) (p : string) : bool :=
  match getitem keys p with
  | Ok _ => true
  | Raise _ => false
  end.

(** *** Adapters *)

Inductive adapter : Type := OpenAI | OpenRouter | Anthropic.

Definition query (a : adapter) : string -> value -> value -> M value :=
  match a with
  | OpenAI => query_openai
  | OpenRouter => query_openrouter
  | Anthropic => query_anthropic
  end.

Definition request_of (a : adapter) : string -> value -> value -> request :=
  match a with
  | OpenAI => openai_request
  | OpenRouter => openrouter_request
  | Anthropic => anthropic_request
  end.

Definition label_of (a : adapter) : string :=
  match a with
  | OpenAI => "OpenAI"
  | OpenRouter => "OpenRouter"
  | Anthropic => "Anthropic"
  end.

(** The body is an object whose [choices] is a list that starts with an
    object whose [message] is an object whose [content] is [x]. *)
Definition chat_shape (body x : value) : Prop :=
  exists first rest message,
    getitem body "choices" = Ok (VList (first :: rest)) /\
    getitem first "message" = Ok message /\
    getitem message "content" = Ok x.

(** The body is an object whose [content] is a list that starts with an
    object whose [text] is [x]. *)
Definition content_shape (body x : value) : Prop :=
  exists first rest,
    getitem body "content" = Ok (VList (first :: rest)) /\
    getitem first "text" = Ok x.

(** The nested place each provider documents for the generated text. *)
Definition documented_shape (a : adapter) (body x : value) : Prop :=
  match a with
  | OpenAI => chat_shape body x
  | OpenRouter => chat_shape body x
  | Anthropic => content_shape body x
  end.

(** The status is not one that [raise_for_status] raises on. *)
Definition success (r : Response) : Prop :=
  (status_code r < 400 \/ 600 <= status_code r)%Z.

(** The diagnostic an adapter prints first when it catches [e]. *)
Definition diagnostic (a : adapter) (e : exn) : event :=
  Print [Lit ("Error querying " ++ label_of a ++ ": "); FmtExn e].

(** *** Model lister *)

(** The order of [str]: lexicographic, character by character. *)
Definition lex_le (a b : string) : Prop := String.leb a b = true.

(** The filter of the OpenAI listing, as the code computes it. *)
Definition has_marker (id : string) : bool := contains "gpt" (lower id).

(** The filter in the words of the specification: the identifier
    contains the marker, each of its three letters in either case. *)
Definition mentions_gpt (id : string) : Prop :=
  exists (pre post : string) (a b c : ascii),
    id = (pre ++ String a (String b (String c post)))%string /\
    (a = "g"%char \/ a = "G"%char) /\
    (b = "p"%char \/ b = "P"%char) /\
    (c = "t"%char \/ c = "T"%char).

(** The service answers the request with a catalog: a status that is not
    an error and a body whose [data] is the list [entries]. *)
Definition answers_catalog (env : Env) (req : request) (entries : list value)
  : Prop :=
  exists r body,
    http env req = Ok r /\ success r /\ body_json r = Some body /\
    getitem body "data" = Ok (VList entries).

Definition openai_line (id : string) : event := Print [Lit "  - "; Lit id].

Definition openrouter_line (row : value * value) : event :=
  Print [Lit "  - "; Fmt (fst row); Lit " ("; Fmt (snd row); Lit ")"].

(** *** Dispatcher *)

(** The invocation passes lines 212 to 239 of [main]: no setup flag, the
    configuration loads, the provider resolves to a known one, the
    credentials load. *)
Record reaches_key_check (args : Args) (env : Env) (st : State)
  (config : value) (provider : string) (keys : value) (st1 : State) : Prop := {
  no_setup : arg_setup args = false;
  config_loaded : load_config env st = (Ok config, st1);
  provider_known :
    exists v,
      py_or (of_opt (arg_provider args)) (getitem config "default_provider")
      = Ok v /\
      known_provider v = Some provider;
  keys_loaded : fst (load_keys env st1) = Ok keys
}.

(** The invocation also passes lines 241 to 249: the credential of the
    provider is there and truthy, and no listing is asked for. *)
Record reaches_prompt (args : Args) (env : Env) (st : State)
  (config : value) (provider : string) (keys : value) (st1 : State) : Prop := {
  to_key_check : reaches_key_check args env st config provider keys st1;
  key_present :
    exists key, getitem keys provider = Ok key /\ truthy key = true;
  no_listing : arg_list_models args = false
}.

(** A source of the prompt. *)
Inductive source : Type :=
| Literal (text : string)
| File (path : string)
| Stdin
| NoSource.

(** An argument counts as supplied when it is given and is not the empty
    text: the test [if args.prompt], [elif args.file] of the code. *)
Definition supplied (o : option string) : option string :=
  match o with
  | Some s => if s =? "" then None else Some s
  | None => None
  end.

(** The priority in the words of the specification: the literal
    argument, else the file, else standard input when it is not an
    interactive terminal. *)
Definition selected_source (args : Args) (env : Env) : source :=
  match supplied (arg_prompt args) with
  | Some text => Literal text
  | None =>
      match supplied (arg_file args) with
      | Some path => File path
      | None => if stdin_isatty env then NoSource else Stdin
      end
  end.

(** The text the selected source yields, and nothing of the others:
    [None] when no source is selected, an exception when the file
    cannot be read. *)
Definition source_text (args : Args) (env : Env) : result (option string) :=
  match selected_source args env with
  | Literal text => Ok (Some text)
  | File path => let? text := read_text env path in Ok (Some text)
  | Stdin => Ok (Some (stdin_text env))
  | NoSource => Ok None
  end.

(** The adapter [main] calls for a known provider. *)
Definition adapter_of (provider : string) : adapter :=
  if provider =? "openai" then OpenAI
  else if provider =? "openrouter" then OpenRouter
  else Anthropic.

(** The model [main] passes to the adapter: the override, else the
    default model of the provider in the configuration. *)
Definition resolved_model (args : Args) (config : value) (provider : string)
  : result value :=
  py_or (of_opt (arg_model args))
    (let? section := getitem config provider in
     getitem section "default_model").

(** The prompt a request carries: the content of its first message. *)
Definition prompt_of_request (r : request) : result value :=
  match r with
  | POST _ _ data =>
      let? messages := getitem data "messages" in
      let? first := getitem_at messages 0 in
      getitem first "content"
  | GET _ _ => Raise TypeError
  end.

(** The same command line with the positional prompt left out. *)
Definition without_prompt (args : Args) : Args :=
  {| arg_model := arg_model args; arg_prompt := None;
     arg_provider := arg_provider args; arg_setup := arg_setup args;
     arg_list_models := arg_list_models args; arg_file := arg_file args |}.

(** The diagnostic of the credential check. *)
Definition no_key_line (provider : string) : event :=
  Print [Lit "No API key configured for "; Lit provider;
         Lit ". Run with --setup to configure."].

(* ================================================================== *)
(** ** Sample worlds, used to run the program on concrete inputs *)

(** No file can be read, nothing on standard input, no route to any
    service. *)
Definition offline : Env :=
  {| read_text := fun path => Raise (FileNotFoundError path);
     stdin_isatty := true;
     stdin_text := "";
     http := fun _ => Raise (RequestException "connection refused") |}.

(** Every request is answered with status [status] and a body that
    decodes to [body]. *)
Definition answering (status : Z) (body : value) : Env :=
  {| read_text := fun path => Raise (FileNotFoundError path);
     stdin_isatty := true;
     stdin_text := "";
     http := fun _ => Ok {| status_code := status; body_text := "(body)";
                            body_json := Some body |} |}.

(** Every source holds a text: any file reads as one, standard input is
    piped, and every request is answered with [answer]. *)
Definition all_sources (answer : value) : Env :=
  {| read_text := fun _ => Ok "text of the file";
     stdin_isatty := false;
     stdin_text := "text on standard input";
     http := fun _ => Ok {| status_code := 200; body_text := "(body)";
                            body_json := Some answer |} |}.

(** A first run: neither store exists, nothing printed yet. *)
Definition fresh : State :=
  {| config_file := Missing; keys_file := Missing; console := [];
     trace := [] |}.

(** Both stores exist; the key file decodes to [keys]. *)
Definition configured (keys : value) : State :=
  {| config_file := Holds DEFAULT_CONFIG; keys_file := Holds keys;
     console := []; trace := [] |}.

(** The configuration is in place and the key file is there, but
    reading it raises [e]. *)
Definition unreadable_keys (e : exn) : State :=
  {| config_file := Holds DEFAULT_CONFIG; keys_file := Unreadable e;
     console := []; trace := [] |}.

(** The state after the first [load_config] of a first run. *)
Definition first_run : State :=
  {| config_file := Holds DEFAULT_CONFIG; keys_file := Missing; console := [];
     trace := [Print [Lit "Created default configuration at ";
                      Lit CONFIG_PATH]] |}.

(** Credentials with a key for OpenRouter only. *)
Definition openrouter_keys : value :=
  VDict [("openai", VStr ""); ("openrouter", VStr "sk-test");
         ("anthropic", VStr "")].

(** A command line with nothing but the given positional prompt and
    file option. *)
Definition command (prompt file : option string) : Args :=
  {| arg_model := None; arg_prompt := prompt; arg_provider := None;
     arg_setup := false; arg_list_models := false; arg_file := file |}.

(** The answer of a chat-completion service that generated [x]. *)
Definition chat_answer (x : value) : value :=
  VDict [("id", VStr "cmpl-1");
         ("choices",
          VList [VDict [("index", VInt 0);
                        ("message",
                         VDict [("role", VStr "assistant");
                                ("content", x)])]])].

(** A catalog of three models, as either catalog endpoint could answer. *)
Definition sample_catalog_entries : list value :=
  [ VDict [("id", VStr "gpt-4"); ("name", VStr "GPT-4")];
    VDict [("id", VStr "whisper-1"); ("name", VStr "Whisper")];
    VDict [("id", VStr "GPT-3.5-turbo"); ("name", VStr "GPT-3.5 Turbo")] ].

Definition sample_catalog : value :=
  VDict [("object", VStr "list"); ("data", VList sample_catalog_entries)].

(* ================================================================== *)
(** ** Proof tools *)

(** Unfolds the monadic plumbing and reduces what has become decided. *)
Ltac run :=
  cbv beta iota zeta delta
    [bind try_except ret raise lift emit print print_help when
     requests_send raise_for_status response_json local_var rbind
     isatty stdin_read open_read json_load json_dump path_exists
     get_config_file get_keys_file put_config_file put_keys_file].

(** Splits on whatever the run still waits for. *)
Ltac split_run :=
  repeat (run; cbn [is_Exception];
          match goal with
          | |- context [match ?x with _ => _ end] =>
              lazymatch x with
              | context [match _ with _ => _ end] => fail
              | _ => destruct x
              end
          end).

(* ================================================================== *)
(** ** General facts *)

Lemma log_nil st : log st [] = st.
Proof.
  destruct st; unfold log; simpl. now rewrite app_nil_r.
Qed.

Lemma log_log st a b : log (log st a) b = log st (a ++ b).
Proof.
  unfold log; simpl. now rewrite app_assoc.
Qed.

Lemma sent_requests_app t u :
  sent_requests (t ++ u) = sent_requests t ++ sent_requests u.
Proof.
  induction t as [|ev t IH]; simpl; [reflexivity|].
  destruct ev; simpl; now rewrite IH.
Qed.

Lemma known_provider_sound v p :
  known_provider v = Some p -> v = VStr p /\ In p providers.
Proof.
  unfold known_provider, providers. destruct v; try discriminate.
  simpl. intros H.
  destruct (String.eqb_spec s "openai") as [->|_].
  { injection H as <-. simpl; auto. }
  destruct (String.eqb_spec s "openrouter") as [->|_].
  { injection H as <-. simpl; auto. }
  destruct (String.eqb_spec s "anthropic") as [->|_].
  { injection H as <-. simpl; auto. }
  discriminate.
Qed.

(* ================================================================== *)
(** ** The credential store *)

(** What [load_keys] does in each state of the key file: of the
    exceptions of [open] and [json.load] it turns [FileNotFoundError]
    and [json.JSONDecodeError] into the default mapping, and lets every
    other one pass. *)
Lemma load_keys_eq (env : Env) (st : State) :
  load_keys env st =
    match keys_file st with
    | Missing => (Ok default_keys, st)
    | Malformed => (Ok default_keys, st)
    | Unreadable (FileNotFoundError _) => (Ok default_keys, st)
    | Unreadable JSONDecodeError => (Ok default_keys, st)
    | Unreadable e => (Raise e, st)
    | Holds parsed => (Ok parsed, st)
    end.
Proof.
  destruct st as [config [| |[]|parsed] typed events]; reflexivity.
Qed.

(** C6, as the code has it. [load_keys] returns the default mapping, in
    which each of the three known providers maps to the empty string,
    when the key file is missing or is text that is not a JSON document
    (the two exceptions its handler names, [FileNotFoundError] and
    [json.JSONDecodeError]); it returns the decoded contents unchanged
    when the file exists and decodes; in these cases the world stays as
    it was.  Every other exception of opening or decoding the file is
    not caught and leaves [load_keys]. *)
Theorem load_keys_default_or_parsed (env : Env) (st : State) :
  load_keys env st =
    match keys_file st with
    | Missing => (Ok default_keys, st)
    | Malformed => (Ok default_keys, st)
    | Unreadable (FileNotFoundError _) => (Ok default_keys, st)
    | Unreadable JSONDecodeError => (Ok default_keys, st)
    | Unreadable e => (Raise e, st)
    | Holds parsed => (Ok parsed, st)
    end
  /\ Forall (fun p => getitem default_keys p = Ok (VStr "")) providers.
Proof.
  split; [apply load_keys_eq | repeat constructor].
Qed.

(** C6 fails as stated: a key file whose bytes are not text in the
    encoding does not parse as JSON, [json.load] raises
    [UnicodeDecodeError], which the handler of [load_keys] does not
    name; [load_keys] raises it instead of returning the default
    mapping, and so does the dispatcher that called it.  The same holds
    for nesting that is too deep and for a directory at the path. *)
Lemma load_keys_undecodable_file_escapes :
  load_keys offline (unreadable_keys UnicodeDecodeError) =
    (Raise UnicodeDecodeError, unreadable_keys UnicodeDecodeError)
  /\ fst (main (command (Some "hello") None) offline
            (unreadable_keys UnicodeDecodeError))
     = Raise UnicodeDecodeError
  /\ fst (load_keys offline (unreadable_keys RecursionError))
     = Raise RecursionError
  /\ fst (load_keys offline (unreadable_keys (IsADirectoryError KEYS_PATH)))
     = Raise (IsADirectoryError KEYS_PATH).
Proof.
  repeat split.
Qed.

(** C3, as the code has it. The mapping [load_keys] returns has an entry
    for each of the three known providers, each the empty string, when
    the key file is missing or is text that is not a JSON document; when
    the file decodes, the mapping is the decoded value, and has an entry
    for a provider exactly when the file has one; when opening or
    decoding the file raises any other exception, [load_keys] raises it
    and there is no mapping. *)
Theorem load_keys_entries (env : Env) (st : State) :
  match keys_file st with
  | Holds parsed =>
      exists keys,
        load_keys env st = (Ok keys, st) /\
        keys = parsed /\
        forall p, has_entry keys p = has_entry parsed p
  | Unreadable e =>
      match e with
      | FileNotFoundError _ | JSONDecodeError =>
          exists keys,
            load_keys env st = (Ok keys, st) /\
            Forall (fun p => getitem keys p = Ok (VStr "")) providers
      | _ => load_keys env st = (Raise e, st)
      end
  | _ =>
      exists keys,
        load_keys env st = (Ok keys, st) /\
        Forall (fun p => getitem keys p = Ok (VStr "")) providers
  end.
Proof.
  rewrite load_keys_eq.
  destruct (keys_file st) as [| |[]|parsed]; try reflexivity;
    eexists; split; try reflexivity; auto; repeat constructor.
Qed.

(** C3 fails as stated: a key file holding the empty JSON object decodes,
    so [load_keys] returns the empty mapping, which has an entry for
    none of the three providers, and the dispatcher that consumes it
    ends with [KeyError]. *)
Lemma load_keys_empty_object_has_no_entry :
  load_keys offline (configured (VDict [])) =
    (Ok (VDict []), configured (VDict []))
  /\ map (has_entry (VDict [])) providers = [false; false; false]
  /\ fst (main (command (Some "hello") None) offline (configured (VDict [])))
     = Raise (KeyError (VStr "openrouter")).
Proof.
  repeat split.
Qed.

(* ================================================================== *)
(** ** The configuration store *)

(** What [load_config] does in each state of the configuration file. *)
Lemma load_config_eq (env : Env) (st : State) :
  load_config env st =
    match config_file st with
    | Missing =>
        (Ok DEFAULT_CONFIG,
         {| config_file := Holds DEFAULT_CONFIG;
            keys_file := keys_file st;
            console := console st;
            trace := trace st ++
              [Print [Lit "Created default configuration at ";
                      Lit CONFIG_PATH]] |})
    | Malformed => (Raise JSONDecodeError, st)
    | Unreadable e => (Raise e, st)
    | Holds parsed => (Ok parsed, st)
    end.
Proof.
  destruct st as [[| | |parsed] keys typed events]; reflexivity.
Qed.

(** C7. When the configuration file does not exist, [load_config] leaves
    a file that decodes to [DEFAULT_CONFIG], reports where it created
    it, and returns [DEFAULT_CONFIG]; when the file exists and decodes,
    it returns the decoded contents; when the file exists and does not
    decode, the parse failure reaches the caller, and so does every
    other exception of opening or decoding it.  [DEFAULT_CONFIG] has
    the three providers, each with an empty [api_key] and a
    [default_model], and a [default_provider]. *)
Theorem load_config_default_or_parsed (env : Env) (st : State) :
  load_config env st =
    match config_file st with
    | Missing =>
        (Ok DEFAULT_CONFIG,
         {| config_file := Holds DEFAULT_CONFIG;
            keys_file := keys_file st;
            console := console st;
            trace := trace st ++
              [Print [Lit "Created default configuration at ";
                      Lit CONFIG_PATH]] |})
    | Malformed => (Raise JSONDecodeError, st)
    | Unreadable e => (Raise e, st)
    | Holds parsed => (Ok parsed, st)
    end
  /\ dict_keys DEFAULT_CONFIG = providers ++ ["default_provider"]
  /\ Forall (fun p =>
       exists section model,
         getitem DEFAULT_CONFIG p = Ok section /\
         dict_keys section = ["api_key"; "default_model"] /\
         getitem section "api_key" = Ok (VStr "") /\
         getitem section "default_model" = Ok (VStr model)) providers
  /\ getitem DEFAULT_CONFIG "default_provider" = Ok (VStr "openrouter").
Proof.
  split; [|split; [reflexivity|split; [|reflexivity]]].
  - apply load_config_eq.
  - repeat constructor; do 2 eexists; repeat split.
Qed.

(* ================================================================== *)
(** ** The provider adapters *)

Lemma success_ok r : success r -> response_ok r = true.
Proof.
  unfold success, response_ok. intros H.
  destruct (Z.leb_spec 400 (status_code r)), (Z.ltb_spec (status_code r) 600);
    simpl; auto; lia.
Qed.

Lemma failure_not_ok r :
  (400 <= status_code r < 600)%Z -> response_ok r = false.
Proof.
  unfold response_ok. intros H.
  destruct (Z.leb_spec 400 (status_code r)), (Z.ltb_spec (status_code r) 600);
    simpl; auto; lia.
Qed.

(** C5. For each of the three adapters and every prompt, model and key:
    when the POST is answered with a status that is not an error and a
    body that decodes to the shape the provider documents, with the
    generated text [x] at its place, the adapter returns exactly [x],
    having sent its one request and printed nothing. *)
Theorem adapter_returns_generated_text
  (a : adapter) (prompt : string) (model api_key : value)
  (env : Env) (st : State) (r : Response) (body : value) (x : string) :
  http env (request_of a prompt model api_key) = Ok r ->
  success r ->
  body_json r = Some body ->
  documented_shape a body (VStr x) ->
  query a prompt model api_key env st =
    (Ok (VStr x), log st [Sent (request_of a prompt model api_key)]).
Proof.
  intros Hhttp Hok Hjson Hshape.
  apply success_ok in Hok. unfold response_ok in Hok.
  apply negb_true_iff in Hok.
  destruct a; cbn [documented_shape query request_of] in *.
  - destruct Hshape as (first & rest & message & H1 & H2 & H3).
    unfold query_openai. run. rewrite Hhttp. run. rewrite Hok. run.
    rewrite Hjson. run. rewrite H1. run. cbn [getitem_at nth_error]. run.
    rewrite H2. run. rewrite H3. reflexivity.
  - destruct Hshape as (first & rest & message & H1 & H2 & H3).
    unfold query_openrouter. run. rewrite Hhttp. run. rewrite Hok. run.
    rewrite Hjson. run. rewrite H1. run. cbn [getitem_at nth_error]. run.
    rewrite H2. run. rewrite H3. reflexivity.
  - destruct Hshape as (first & rest & H1 & H2).
    unfold query_anthropic. run. rewrite Hhttp. run. rewrite Hok. run.
    rewrite Hjson. run. rewrite H1. run. cbn [getitem_at nth_error]. run.
    rewrite H2. reflexivity.
Qed.

(** The test of the repository: a mocked answer that generated [X]. *)
Lemma adapter_returns_generated_text_witness :
  query OpenAI "hello" (VStr "gpt-4") (VStr "sk-test")
    (answering 200 (chat_answer (VStr "X"))) fresh =
    (Ok (VStr "X"),
     log fresh [Sent (openai_request "hello" (VStr "gpt-4") (VStr "sk-test"))]).
Proof.
  apply (adapter_returns_generated_text OpenAI "hello" (VStr "gpt-4")
           (VStr "sk-test") (answering 200 (chat_answer (VStr "X"))) fresh
           {| status_code := 200; body_text := "(body)";
              body_json := Some (chat_answer (VStr "X")) |}
           (chat_answer (VStr "X")) "X").
  - reflexivity.
  - left. simpl. lia.
  - reflexivity.
  - simpl. unfold chat_shape. do 3 eexists. repeat split.
Defined.

(** On an error status every adapter prints its diagnostic and returns
    [None].  The two adapters that do not test the response for truth
    also print the raw body; [query_openai] does not, because a response
    with an error status is falsy. *)
Lemma adapter_error_status_returns_none
  (a : adapter) (prompt : string) (model api_key : value)
  (env : Env) (st : State) (r : Response) :
  http env (request_of a prompt model api_key) = Ok r ->
  (400 <= status_code r < 600)%Z ->
  query a prompt model api_key env st =
    (Ok VNone,
     log st ([Sent (request_of a prompt model api_key);
              diagnostic a (HTTPError (status_code r))] ++
             match a with
             | OpenAI => []
             | _ => [Print [Lit "Response: "; Lit (body_text r)]]
             end)).
Proof.
  intros Hhttp Hstatus.
  pose proof (failure_not_ok r Hstatus) as Hok.
  assert (Hraise : ((400 <=? status_code r) && (status_code r <? 600))%Z = true).
  { unfold response_ok in Hok. now apply negb_false_iff in Hok. }
  destruct a; cbn [query request_of] in *.
  - unfold query_openai. run. rewrite Hhttp. run. rewrite Hraise. run.
    cbn [is_Exception]. run. rewrite Hok. run.
    rewrite !log_log. reflexivity.
  - unfold query_openrouter. run. rewrite Hhttp. run. rewrite Hraise. run.
    cbn [is_Exception]. run. rewrite !log_log. reflexivity.
  - unfold query_anthropic. run. rewrite Hhttp. run. rewrite Hraise. run.
    cbn [is_Exception]. run. rewrite !log_log. reflexivity.
Qed.

(** When the transport raises, [query_openai], which sets [response] to
    [None] before the POST, prints its diagnostic and returns [None]. *)
Lemma query_openai_transport_failure_returns_none
  (prompt : string) (model api_key : value) (env : Env) (st : State)
  (e : exn) :
  http env (openai_request prompt model api_key) = Raise e ->
  is_Exception e = true ->
  query_openai prompt model api_key env st =
    (Ok VNone,
     log st [Sent (openai_request prompt model api_key);
             diagnostic OpenAI e]).
Proof.
  intros Hhttp He. unfold query_openai. run. rewrite Hhttp. run.
  rewrite He. run. rewrite !log_log. reflexivity.
Qed.

(** When the transport raises, the other two adapters print their
    diagnostic and then read [response], which no statement has
    assigned: the handler itself raises, and the exception leaves the
    adapter. *)
Lemma unassigned_response_escapes
  (a : adapter) (prompt : string) (model api_key : value)
  (env : Env) (st : State) (e : exn) :
  a <> OpenAI ->
  http env (request_of a prompt model api_key) = Raise e ->
  is_Exception e = true ->
  query a prompt model api_key env st =
    (Raise (UnboundLocalError "response"),
     log st [Sent (request_of a prompt model api_key); diagnostic a e]).
Proof.
  intros Ha Hhttp He. destruct a; [congruence| |]; cbn [query request_of] in *.
  - unfold query_openrouter. run. rewrite Hhttp. run.
    rewrite He. run. rewrite !log_log. reflexivity.
  - unfold query_anthropic. run. rewrite Hhttp. run.
    rewrite He. run. rewrite !log_log. reflexivity.
Qed.

(** C1, at the input where the code departs from it. The network is
    down, so the POST of [query_openrouter] raises a transport exception;
    the adapter prints its diagnostic and then raises
    [UnboundLocalError] instead of returning [None].  [query_anthropic]
    does the same; [query_openai] on the same input returns [None]. *)
Theorem query_openrouter_transport_failure_escapes :
  query_openrouter "hello" (VStr "some/model") (VStr "sk-test") offline fresh =
    (Raise (UnboundLocalError "response"),
     log fresh
       [Sent (openrouter_request "hello" (VStr "some/model") (VStr "sk-test"));
        Print [Lit "Error querying OpenRouter: ";
               FmtExn (RequestException "connection refused")]])
  /\ fst (query_anthropic "hello" (VStr "some-model") (VStr "sk-test")
            offline fresh) = Raise (UnboundLocalError "response")
  /\ fst (query_openai "hello" (VStr "gpt-4") (VStr "sk-test") offline fresh)
     = Ok VNone.
Proof.
  repeat split.
Qed.

(** Whatever the service does, an adapter sends its one request and no
    other. *)
Lemma adapter_sends_once (a : adapter) (prompt : string)
  (model api_key : value) (env : Env) (st : State) :
  sent_requests (trace (snd (query a prompt model api_key env st))) =
    sent_requests (trace st) ++ [request_of a prompt model api_key].
Proof.
  destruct a; cbn [query request_of].
  - unfold query_openai. split_run; simpl;
      rewrite ?sent_requests_app; simpl; rewrite ?app_nil_r; reflexivity.
  - unfold query_openrouter. split_run; simpl;
      rewrite ?sent_requests_app; simpl; rewrite ?app_nil_r; reflexivity.
  - unfold query_anthropic. split_run; simpl;
      rewrite ?sent_requests_app; simpl; rewrite ?app_nil_r; reflexivity.
Qed.

(* ================================================================== *)
(** ** The model lister *)

(** *** Substrings and case *)

Lemma prefix_iff (n h : string) :
  String.prefix n h = true <-> exists post, h = (n ++ post)%string.
Proof.
  revert h. induction n as [|c n IH]; intros h.
  - split; [intros _; now exists h | intros _; now destruct h].
  - destruct h as [|d h]; simpl.
    + split; [discriminate | intros [post H]; discriminate].
    + destruct (Ascii.ascii_dec c d) as [->|Hne].
      * rewrite IH. split; intros [post H]; exists post; congruence.
      * split; [discriminate | intros [post H]; congruence].
Qed.

Lemma contains_eq (n h : string) :
  contains n h =
    if String.prefix n h then true
    else match h with
         | EmptyString => false
         | String _ rest => contains n rest
         end.
Proof.
  destruct h; reflexivity.
Qed.

Lemma contains_iff (n h : string) :
  contains n h = true <-> exists pre post, h = (pre ++ n ++ post)%string.
Proof.
  induction h as [|d h IH]; rewrite contains_eq.
  - destruct (String.prefix n "") eqn:E.
    + split; [intros _|reflexivity].
      apply prefix_iff in E as [post E]. now exists "", post.
    + split; [discriminate|]. intros (pre & post & H).
      destruct pre; simpl in H; [|discriminate].
      assert (String.prefix n "" = true) by (apply prefix_iff; eauto).
      congruence.
  - destruct (String.prefix n (String d h)) eqn:E.
    + split; [intros _|reflexivity].
      apply prefix_iff in E as [post E]. now exists "", post.
    + rewrite IH. split.
      * intros (pre & post & H). exists (String d pre), post.
        simpl. now rewrite H.
      * intros (pre & post & H). destruct pre as [|d' pre]; simpl in H.
        -- assert (String.prefix n (String d h) = true)
             by (apply prefix_iff; eauto).
           congruence.
        -- injection H as _ H. eauto.
Qed.

Lemma lower_char_is (c : ascii) (l u : ascii) :
  (l, u) = ("g", "G")%char \/ (l, u) = ("p", "P")%char \/
  (l, u) = ("t", "T")%char ->
  lower_char c = l <-> c = l \/ c = u.
Proof.
  intros [H|[H|H]]; injection H as -> ->;
    destruct c as [[] [] [] [] [] [] [] []]; vm_compute;
    (split; [intros E; first [now left | now right | discriminate E]
            | intros [E|E]; first [reflexivity | discriminate E]]).
Qed.

Lemma lower_app (a b : string) :
  lower (a ++ b)%string = (lower a ++ lower b)%string.
Proof.
  induction a as [|c a IH]; simpl; [reflexivity | now rewrite IH].
Qed.

Lemma lower_split (s x y : string) :
  lower s = (x ++ y)%string ->
  exists s1 s2, s = (s1 ++ s2)%string /\ lower s1 = x /\ lower s2 = y.
Proof.
  revert s. induction x as [|c x IH]; intros s H; simpl in H.
  - now exists "", s.
  - destruct s as [|d s]; simpl in H; [discriminate|].
    injection H as Hc H. destruct (IH s H) as (s1 & s2 & -> & <- & <-).
    exists (String d s1), s2. simpl. now rewrite Hc.
Qed.

(** The filter of the code is the filter of the specification. *)
Lemma has_marker_iff (id : string) :
  has_marker id = true <-> mentions_gpt id.
Proof.
  unfold has_marker, mentions_gpt. rewrite contains_iff. split.
  - intros (pre & post & H).
    apply lower_split in H as (s1 & s2 & -> & <- & H).
    destruct s2 as [|a [|b [|c s2]]]; simpl in H; try discriminate.
    injection H as Ha Hb Hc _.
    exists s1, s2, a, b, c. split; [reflexivity|].
    repeat split; eapply lower_char_is; eauto.
  - intros (pre & post & a & b & c & -> & Ha & Hb & Hc).
    exists (lower pre), (lower post). rewrite lower_app. simpl.
    apply (lower_char_is a "g" "G") in Ha; auto.
    apply (lower_char_is b "p" "P") in Hb; auto.
    apply (lower_char_is c "t" "T") in Hc; auto.
    now rewrite Ha, Hb, Hc.
Qed.

(** *** Sorting *)

Lemma insert_sorted_perm (x : string) (l : list string) :
  Permutation (insert_sorted x l) (x :: l).
Proof.
  induction l as [|y l IH]; simpl; [reflexivity|].
  destruct (String.leb x y); [reflexivity|].
  rewrite IH. apply perm_swap.
Qed.

Lemma sorted_perm (l : list string) : Permutation (sorted l) l.
Proof.
  induction l as [|x l IH]; simpl; [reflexivity|].
  rewrite insert_sorted_perm. now constructor.
Qed.

Lemma insert_sorted_hd (x a : string) (l : list string) :
  lex_le a x -> HdRel lex_le a l -> HdRel lex_le a (insert_sorted x l).
Proof.
  intros Hax Hal. destruct l as [|y l]; simpl.
  - now constructor.
  - destruct (String.leb x y); constructor; auto. now inversion Hal.
Qed.

Lemma insert_sorted_ok (x : string) (l : list string) :
  Sorted lex_le l -> Sorted lex_le (insert_sorted x l).
Proof.
  induction 1 as [|y l Hs IH Hhd]; simpl.
  - repeat constructor.
  - destruct (String.leb x y) eqn:E.
    + repeat constructor; auto.
    + constructor; [exact IH|].
      apply insert_sorted_hd; [|exact Hhd].
      destruct (String.leb_total x y) as [H|H]; [congruence | exact H].
Qed.

Lemma sorted_ok (l : list string) : Sorted lex_le (sorted l).
Proof.
  induction l as [|x l IH]; simpl; [constructor|].
  now apply insert_sorted_ok.
Qed.

(** *** The two listings *)

Lemma for_each_emit {A} (l : list A) (ev : A -> event) env st :
  for_each l (fun x => emit (ev x)) env st = (Ok tt, log st (map ev l)).
Proof.
  revert st. induction l as [|x l IH]; intros st; simpl.
  - unfold ret. now rewrite log_nil.
  - unfold bind. unfold emit at 1. rewrite IH, log_log. reflexivity.
Qed.

Lemma for_each_print {A} (l : list A) (line : A -> text) env st :
  for_each l (fun x => print (line x)) env st =
    (Ok tt, log st (map (fun x => Print (line x)) l)).
Proof.
  exact (for_each_emit l (fun x => Print (line x)) env st).
Qed.

Lemma chat_models_filter (entries : list value) (ids : list string) :
  Forall2 (fun entry id => getitem entry "id" = Ok (VStr id)) entries ids ->
  chat_models entries = Ok (filter has_marker ids).
Proof.
  induction 1 as [|entry id entries ids Hid _ IH]; simpl; [reflexivity|].
  rewrite Hid. cbn [rbind]. rewrite IH. cbn [rbind].
  unfold has_marker. now destruct (contains "gpt" (lower id)).
Qed.

Lemma openrouter_rows (entries : list value) (rows : list (value * value))
  env st :
  Forall2 (fun entry row =>
             getitem entry "id" = Ok (fst row) /\
             getitem entry "name" = Ok (snd row)) entries rows ->
  for_each entries
    (fun model =>
       id <- lift (getitem model "id") ;;
       name <- lift (getitem model "name") ;;
       print [Lit "  - "; Fmt id; Lit " ("; Fmt name; Lit ")"]) env st =
    (Ok tt, log st (map openrouter_line rows)).
Proof.
  intros H. revert st.
  induction H as [|entry row entries rows [Hid Hname] _ IH]; intros st; simpl.
  - now rewrite log_nil.
  - unfold bind at 1. unfold bind at 1, lift at 1. rewrite Hid.
    unfold bind at 1, lift at 1. rewrite Hname.
    unfold print at 1, emit at 1. rewrite IH, log_log. reflexivity.
Qed.

(** C8. When the catalog endpoint answers with a list of entries:
    for [openai], entries with text identifiers, [list_models] sends its
    one request, prints the heading and then one line per identifier
    that contains the marker in either case, each as often as the
    catalog has it, in lexicographic order; for [openrouter], entries
    with an identifier and a name, it prints the heading and then one
    line per entry with the identifier and the name, in the order of
    the catalog, none left out. *)
Theorem list_models_prints_catalog
  (api_key : value) (env : Env) (st : State) (entries : list value) :
  (forall ids : list string,
     answers_catalog env (models_request "openai" api_key) entries ->
     Forall2 (fun entry id => getitem entry "id" = Ok (VStr id)) entries ids ->
     let shown := sorted (filter has_marker ids) in
     list_models "openai" api_key env st =
       (Ok tt,
        log st (Sent (models_request "openai" api_key)
                :: Print [Lit (nl ++ "Available OpenAI models:")]
                :: map openai_line shown))
     /\ Sorted lex_le shown
     /\ Permutation shown (filter has_marker ids)
     /\ (forall id, In id shown <-> In id ids /\ mentions_gpt id))
  /\
  (forall rows : list (value * value),
     answers_catalog env (models_request "openrouter" api_key) entries ->
     Forall2 (fun entry row =>
                getitem entry "id" = Ok (fst row) /\
                getitem entry "name" = Ok (snd row)) entries rows ->
     list_models "openrouter" api_key env st =
       (Ok tt,
        log st (Sent (models_request "openrouter" api_key)
                :: Print [Lit (nl ++ "Available OpenRouter models:")]
                :: map openrouter_line rows))).
Proof.
  split.
  - intros ids (r & body & Hhttp & Hok & Hjson & Hdata) Hids shown.
    apply success_ok in Hok. unfold response_ok in Hok.
    apply negb_true_iff in Hok.
    split; [|split; [apply sorted_ok|split; [apply sorted_perm|]]].
    + unfold list_models. cbn [String.eqb Ascii.eqb Bool.eqb].
      run. rewrite Hhttp. run. rewrite Hok. run. rewrite Hjson. run.
      rewrite Hdata. run. cbn [iterate]. run.
      rewrite (chat_models_filter _ _ Hids). run.
      fold shown.
      rewrite (for_each_print shown (fun model => [Lit "  - "; Lit model])).
      rewrite !log_log. reflexivity.
    + intros id. unfold shown.
      rewrite (Permutation_in' (eq_refl id) (sorted_perm _)).
      rewrite filter_In, has_marker_iff. reflexivity.
  - intros rows (r & body & Hhttp & Hok & Hjson & Hdata) Hrows.
    apply success_ok in Hok. unfold response_ok in Hok.
    apply negb_true_iff in Hok.
    unfold list_models. cbn [String.eqb Ascii.eqb Bool.eqb].
    run. rewrite Hhttp. run. rewrite Hok. run. rewrite Hjson. run.
    rewrite Hdata. run. cbn [iterate]. run.
    rewrite (openrouter_rows _ _ _ _ Hrows).
    rewrite !log_log. reflexivity.
Qed.

(** Both listings of the sample catalog. *)
Lemma list_models_prints_catalog_witness :
  list_models "openai" (VStr "sk-test") (answering 200 sample_catalog) fresh =
    (Ok tt,
     log fresh
       [ Sent (models_request "openai" (VStr "sk-test"));
         Print [Lit (nl ++ "Available OpenAI models:")];
         openai_line "GPT-3.5-turbo";
         openai_line "gpt-4" ])
  /\
  list_models "openrouter" (VStr "sk-test") (answering 200 sample_catalog)
    fresh =
    (Ok tt,
     log fresh
       [ Sent (models_request "openrouter" (VStr "sk-test"));
         Print [Lit (nl ++ "Available OpenRouter models:")];
         openrouter_line (VStr "gpt-4", VStr "GPT-4");
         openrouter_line (VStr "whisper-1", VStr "Whisper");
         openrouter_line (VStr "GPT-3.5-turbo", VStr "GPT-3.5 Turbo") ]).
Proof.
  assert (Hcat : forall req,
             answers_catalog (answering 200 sample_catalog) req
               sample_catalog_entries).
  { intros req. do 2 eexists. split; [reflexivity|].
    split; [left; simpl; lia|]. split; reflexivity. }
  destruct (list_models_prints_catalog (VStr "sk-test")
              (answering 200 sample_catalog) fresh sample_catalog_entries)
    as [Hopenai Hopenrouter].
  split.
  - apply (Hopenai ["gpt-4"; "whisper-1"; "GPT-3.5-turbo"] (Hcat _)).
    repeat constructor.
  - apply (Hopenrouter
             [ (VStr "gpt-4", VStr "GPT-4");
               (VStr "whisper-1", VStr "Whisper");
               (VStr "GPT-3.5-turbo", VStr "GPT-3.5 Turbo") ] (Hcat _)).
    repeat constructor.
Defined.

(* ================================================================== *)
(** ** The command dispatcher *)

Lemma load_keys_run env st keys :
  fst (load_keys env st) = Ok keys -> load_keys env st = (Ok keys, st).
Proof.
  rewrite load_keys_eq.
  destruct (keys_file st) as [| |[]|parsed]; simpl; try discriminate;
    now intros [= ->].
Qed.

Lemma load_config_sends_nothing env st r st1 :
  load_config env st = (r, st1) ->
  sent_requests (trace st1) = sent_requests (trace st).
Proof.
  rewrite load_config_eq.
  destruct (config_file st); intros [= <- <-]; simpl; auto.
  rewrite sent_requests_app. simpl. now rewrite app_nil_r.
Qed.

(** [main] from the credential check on, once the invocation got there. *)
Lemma main_from_key_check args env st config provider keys st1 :
  reaches_key_check args env st config provider keys st1 ->
  main args env st =
    match getitem keys provider with
    | Ok key =>
        if negb (truthy key) then
          (Raise (SystemExit 1), log st1 [no_key_line provider])
        else if arg_list_models args then
          (section <- lift (getitem config provider) ;;
           api_key <- lift (getitem section "api_key") ;;
           list_models provider api_key) env st1
        else main_prompt args config provider keys env st1
    | Raise e => (Raise e, st1)
    end.
Proof.
  intros [Hsetup Hconfig (v & Hv & Hknown) Hkeys].
  apply load_keys_run in Hkeys.
  unfold main. unfold bind at 1. rewrite Hconfig, Hsetup.
  unfold bind at 1, lift at 1. rewrite Hv, Hknown.
  unfold bind at 1. rewrite Hkeys.
  unfold bind at 1, lift at 1.
  destruct (getitem keys provider) as [key|e]; [|reflexivity].
  destruct (truthy key); [|reflexivity].
  cbn [negb]. now destruct (arg_list_models args).
Qed.

(** What [main_send] does with nothing, or with the empty text. *)
Lemma main_send_nothing args config provider keys prompt env st :
  prompt = VNone \/ prompt = VStr "" ->
  main_send args config provider keys prompt env st =
    (Ok tt, log st [PrintHelp]).
Proof.
  intros [->| ->]; reflexivity.
Qed.

(** What [main_send] does with a text that is not empty. *)
Lemma main_send_text args config provider keys text env st :
  text <> "" ->
  In provider providers ->
  main_send args config provider keys (VStr text) env st =
    (model <- lift (resolved_model args config provider) ;;
     response <-
       (api_key <- lift (getitem keys provider) ;;
        query (adapter_of provider) text model api_key) ;;
     when (truthy response) (print [Fmt response])) env st.
Proof.
  intros Htext Hin. unfold main_send. cbn [truthy].
  destruct (String.eqb_spec text "") as [->|_]; [congruence|].
  cbn [negb]. unfold providers in Hin. simpl in Hin.
  destruct Hin as [<-|[<-|[<-|[]]]]; reflexivity.
Qed.

(** [main] from the resolution of the prompt on: the text comes from
    the selected source. *)
Lemma main_by_source args env st config provider keys st1 :
  reaches_prompt args env st config provider keys st1 ->
  main args env st =
    match source_text args env with
    | Ok (Some text) =>
        main_send args config provider keys (VStr text) env st1
    | Ok None => (Ok tt, log st1 [PrintHelp])
    | Raise e =>
        if is_Exception e
        then (Ok tt, log st1 [Print [Lit "Error reading file: "; FmtExn e]])
        else (Raise e, st1)
    end.
Proof.
  intros [Hreach (key & Hkey & Htruthy) Hlist].
  rewrite (main_from_key_check _ _ _ _ _ _ _ Hreach).
  rewrite Hkey, Htruthy, Hlist. cbn [negb].
  unfold main_prompt, source_text, selected_source, supplied.
  destruct (arg_prompt args) as [literal|]; cbn [of_opt truthy].
  - destruct (String.eqb_spec literal "") as [->|_]; cbn [negb].
    + destruct (arg_file args) as [path|]; cbn [of_opt truthy].
      * destruct (String.eqb_spec path "") as [->|_]; cbn [negb].
        -- run. now destruct (stdin_isatty env).
        -- run. now destruct (read_text env path).
      * run. now destruct (stdin_isatty env).
    + reflexivity.
  - destruct (arg_file args) as [path|]; cbn [of_opt truthy].
    + destruct (String.eqb_spec path "") as [->|_]; cbn [negb].
      * run. now destruct (stdin_isatty env).
      * run. now destruct (read_text env path).
    + run. now destruct (stdin_isatty env).
Qed.

(** C2. When an invocation without the setup flag resolves a known
    provider and the loaded credentials map that provider to the empty
    string, [main] prints its diagnostic and raises [SystemExit(1)]: the
    exit status is exactly 1, and no request has been sent. *)
Theorem empty_credential_exits_with_status_1
  (args : Args) (env : Env) (st : State)
  (config : value) (provider : string) (keys : value) (st1 : State) :
  reaches_key_check args env st config provider keys st1 ->
  getitem keys provider = Ok (VStr "") ->
  main args env st = (Raise (SystemExit 1), log st1 [no_key_line provider])
  /\ exit_status (fst (main args env st)) = 1%Z
  /\ sent_requests (trace (snd (main args env st))) = sent_requests (trace st).
Proof.
  intros Hreach Hkey.
  assert (Hmain : main args env st =
                  (Raise (SystemExit 1), log st1 [no_key_line provider])).
  { rewrite (main_from_key_check _ _ _ _ _ _ _ Hreach), Hkey. reflexivity. }
  rewrite Hmain. repeat split. simpl.
  rewrite sent_requests_app. simpl. rewrite app_nil_r.
  exact (load_config_sends_nothing _ _ _ _ (config_loaded _ _ _ _ _ _ _ Hreach)).
Qed.

(** A first run: the configuration is created with [openrouter] as the
    default provider, there is no key file, and [main] exits with 1. *)
Lemma empty_credential_exits_with_status_1_witness :
  main (command (Some "hello") None) offline fresh =
    (Raise (SystemExit 1), log first_run [no_key_line "openrouter"])
  /\ exit_status (fst (main (command (Some "hello") None) offline fresh)) = 1%Z
  /\ sent_requests
       (trace (snd (main (command (Some "hello") None) offline fresh)))
     = sent_requests (trace fresh).
Proof.
  apply (empty_credential_exits_with_status_1
           (command (Some "hello") None) offline fresh
           DEFAULT_CONFIG "openrouter" default_keys first_run).
  - constructor.
    + reflexivity.
    + reflexivity.
    + exists (VStr "openrouter"). split; reflexivity.
    + reflexivity.
  - reflexivity.
Defined.

(** C4, as the code has it. An invocation that reaches the resolution of
    the prompt takes the prompt from one source only: the literal
    argument when it is given and not empty; else the contents of the
    file when a file is given and its name is not empty; else standard
    input when it is not an interactive terminal; else there is no
    prompt.  When the literal is given and not empty and the model
    resolves, the run sends exactly one request, and the prompt it
    carries is the literal, whatever the file and standard input hold. *)
Theorem prompt_source_priority
  (args : Args) (env : Env) (st : State)
  (config : value) (provider : string) (keys : value) (st1 : State) :
  reaches_prompt args env st config provider keys st1 ->
  main args env st =
    match selected_source args env with
    | Literal text => main_send args config provider keys (VStr text) env st1
    | File path =>
        match read_text env path with
        | Ok text => main_send args config provider keys (VStr text) env st1
        | Raise e =>
            if is_Exception e
            then (Ok tt,
                  log st1 [Print [Lit "Error reading file: "; FmtExn e]])
            else (Raise e, st1)
        end
    | Stdin =>
        main_send args config provider keys (VStr (stdin_text env)) env st1
    | NoSource => (Ok tt, log st1 [PrintHelp])
    end
  /\ (forall text model,
        supplied (arg_prompt args) = Some text ->
        resolved_model args config provider = Ok model ->
        exists req,
          sent_requests (trace (snd (main args env st))) =
            sent_requests (trace st) ++ [req] /\
          prompt_of_request req = Ok (VStr text)).
Proof.
  intros Hreach. pose proof (main_by_source _ _ _ _ _ _ _ Hreach) as Hmain.
  split.
  - rewrite Hmain. unfold source_text.
    destruct (selected_source args env); try reflexivity.
    cbn [rbind]. now destruct (read_text env path).
  - intros text model Hlit Hmodel.
    destruct Hreach as [Hcheck (key & Hkey & _) _].
    destruct Hcheck as [_ Hconfig (v & _ & Hknown) _].
    apply known_provider_sound in Hknown as [_ Hin].
    assert (Htext : text <> "").
    { unfold supplied in Hlit. destruct (arg_prompt args) as [s|]; [|discriminate].
      destruct (String.eqb_spec s ""); [discriminate|]. now injection Hlit as <-. }
    unfold source_text, selected_source in Hmain. rewrite Hlit in Hmain.
    rewrite Hmain, (main_send_text _ _ _ _ _ _ _ Htext Hin).
    exists (request_of (adapter_of provider) text model key). split.
    + unfold bind, lift. rewrite Hmodel, Hkey.
      pose proof (adapter_sends_once (adapter_of provider) text model key
                    env st1) as Hsent.
      rewrite (load_config_sends_nothing _ _ _ _ Hconfig) in Hsent.
      destruct (query (adapter_of provider) text model key env st1)
        as [[response|e] st2]; simpl in Hsent; [|exact Hsent].
      destruct (truthy response); simpl; [|exact Hsent].
      rewrite sent_requests_app, Hsent. simpl. now rewrite app_nil_r.
    + now destruct (adapter_of provider).
Qed.

(** With both stores in place and a key for the default provider, every
    plain command line reaches the resolution of the prompt. *)
Lemma sample_reaches_prompt (prompt file : option string) (env : Env) :
  reaches_prompt (command prompt file) env (configured openrouter_keys)
    DEFAULT_CONFIG "openrouter" openrouter_keys (configured openrouter_keys).
Proof.
  constructor.
  - constructor.
    + reflexivity.
    + reflexivity.
    + exists (VStr "openrouter"). split; reflexivity.
    + reflexivity.
  - exists (VStr "sk-test"). split; reflexivity.
  - reflexivity.
Defined.

(** The three sources at once, the literal not empty: [main] hands the
    literal to [main_send], and the one request carries it. *)
Lemma prompt_source_priority_witness :
  main (command (Some "the literal") (Some "notes.txt"))
    (all_sources (chat_answer (VStr "X"))) (configured openrouter_keys) =
    main_send (command (Some "the literal") (Some "notes.txt"))
      DEFAULT_CONFIG "openrouter" openrouter_keys (VStr "the literal")
      (all_sources (chat_answer (VStr "X"))) (configured openrouter_keys)
  /\ exists req,
       sent_requests
         (trace (snd (main (command (Some "the literal") (Some "notes.txt"))
                        (all_sources (chat_answer (VStr "X")))
                        (configured openrouter_keys)))) =
         sent_requests (trace (configured openrouter_keys)) ++ [req] /\
       prompt_of_request req = Ok (VStr "the literal").
Proof.
  destruct (prompt_source_priority
              (command (Some "the literal") (Some "notes.txt"))
              (all_sources (chat_answer (VStr "X")))
              (configured openrouter_keys)
              DEFAULT_CONFIG "openrouter" openrouter_keys
              (configured openrouter_keys)
              (sample_reaches_prompt _ _ _)) as [Hmain Hsent].
  split.
  - exact Hmain.
  - exact (Hsent "the literal"
             (VStr "google/gemini-2.0-pro-exp-02-05:free") eq_refl eq_refl).
Defined.

(** C4 fails as stated: the literal argument is given, as the empty
    text, together with a file and piped standard input; the one
    request sent carries the contents of the file, not the literal. *)
Lemma empty_literal_yields_to_file :
  main (command (Some "") (Some "notes.txt"))
    (all_sources (chat_answer (VStr "X"))) (configured openrouter_keys) =
    (Ok tt,
     log (configured openrouter_keys)
       [ Sent (openrouter_request "text of the file"
                 (VStr "google/gemini-2.0-pro-exp-02-05:free")
                 (VStr "sk-test"));
         Print [Fmt (VStr "X")] ])
  /\
  prompt_of_request
    (openrouter_request "text of the file"
       (VStr "google/gemini-2.0-pro-exp-02-05:free") (VStr "sk-test")) =
    Ok (VStr "text of the file")
  /\
  arg_prompt (command (Some "") (Some "notes.txt")) = Some "".
Proof.
  repeat split.
Qed.

(** C9, as the code has it. When the dispatcher hands a prompt to an
    adapter: a result that is truthy is printed as it is; a result that
    is [None], or present and falsy such as the empty text, leaves
    nothing further printed; an exception that leaves the adapter
    leaves [main]. *)
Theorem truthy_result_is_printed
  (args : Args) (env : Env) (st : State)
  (config : value) (provider : string) (keys : value) (st1 : State)
  (text : string) (model key : value) (r : result value) (st2 : State) :
  reaches_prompt args env st config provider keys st1 ->
  source_text args env = Ok (Some text) ->
  text <> "" ->
  resolved_model args config provider = Ok model ->
  getitem keys provider = Ok key ->
  query (adapter_of provider) text model key env st1 = (r, st2) ->
  main args env st =
    match r with
    | Ok response =>
        (Ok tt,
         if truthy response then log st2 [Print [Fmt response]] else st2)
    | Raise e => (Raise e, st2)
    end.
Proof.
  intros Hreach Hsource Htext Hmodel Hkey Hquery.
  rewrite (main_by_source _ _ _ _ _ _ _ Hreach), Hsource.
  destruct Hreach as [[_ _ (v & _ & Hknown) _] _ _].
  apply known_provider_sound in Hknown as [_ Hin].
  rewrite (main_send_text _ _ _ _ _ _ _ Htext Hin).
  unfold bind, lift. rewrite Hmodel, Hkey, Hquery.
  destruct r as [response|e]; [|reflexivity].
  now destruct (truthy response).
Qed.

(** The service generates [X]: the run sends the request and prints [X]. *)
Lemma truthy_result_is_printed_witness :
  main (command (Some "hello") None) (all_sources (chat_answer (VStr "X")))
    (configured openrouter_keys) =
    (Ok tt,
     log (configured openrouter_keys)
       [ Sent (openrouter_request "hello"
                 (VStr "google/gemini-2.0-pro-exp-02-05:free")
                 (VStr "sk-test"));
         Print [Fmt (VStr "X")] ]).
Proof.
  apply (truthy_result_is_printed
           (command (Some "hello") None)
           (all_sources (chat_answer (VStr "X")))
           (configured openrouter_keys)
           DEFAULT_CONFIG "openrouter" openrouter_keys
           (configured openrouter_keys)
           "hello" (VStr "google/gemini-2.0-pro-exp-02-05:free")
           (VStr "sk-test") (Ok (VStr "X"))
           (log (configured openrouter_keys)
              [Sent (openrouter_request "hello"
                       (VStr "google/gemini-2.0-pro-exp-02-05:free")
                       (VStr "sk-test"))])
           (sample_reaches_prompt _ _ _)).
  - reflexivity.
  - discriminate.
  - reflexivity.
  - reflexivity.
  - reflexivity.
Defined.

(** C9 fails as stated: the service generates the empty text, the
    adapter returns it, a present result, and the dispatcher prints
    nothing: the run ends in the state the adapter left. *)
Lemma empty_text_result_is_not_printed :
  query_openrouter "hello" (VStr "google/gemini-2.0-pro-exp-02-05:free")
    (VStr "sk-test") (all_sources (chat_answer (VStr "")))
    (configured openrouter_keys) =
    (Ok (VStr ""),
     log (configured openrouter_keys)
       [Sent (openrouter_request "hello"
                (VStr "google/gemini-2.0-pro-exp-02-05:free")
                (VStr "sk-test"))])
  /\
  main (command (Some "hello") None) (all_sources (chat_answer (VStr "")))
    (configured openrouter_keys) =
    (Ok tt,
     log (configured openrouter_keys)
       [Sent (openrouter_request "hello"
                (VStr "google/gemini-2.0-pro-exp-02-05:free")
                (VStr "sk-test"))]).
Proof.
  split; reflexivity.
Qed.

(** C10. A positional prompt that is the empty text is treated as no
    prompt: the whole run is the run of the same command line without
    it.  When such an invocation reaches the resolution of the prompt,
    the prompt is the contents of the file when a file is supplied,
    else standard input when it is not an interactive terminal; and
    when the source selected yields nothing or the empty text, [main]
    prints the usage help and sends no request. *)
Theorem empty_prompt_argument_is_absent
  (args : Args) (env : Env) (st : State) :
  arg_prompt args = Some "" ->
  main args env st = main (without_prompt args) env st
  /\ forall config provider keys st1,
       reaches_prompt args env st config provider keys st1 ->
       main args env st =
         match supplied (arg_file args) with
         | Some path =>
             match read_text env path with
             | Ok text =>
                 main_send args config provider keys (VStr text) env st1
             | Raise e =>
                 if is_Exception e
                 then (Ok tt,
                       log st1 [Print [Lit "Error reading file: "; FmtExn e]])
                 else (Raise e, st1)
             end
         | None =>
             if stdin_isatty env then (Ok tt, log st1 [PrintHelp])
             else main_send args config provider keys
                    (VStr (stdin_text env)) env st1
         end
       /\ (source_text args env = Ok None \/
           source_text args env = Ok (Some "") ->
           main args env st = (Ok tt, log st1 [PrintHelp]) /\
           sent_requests (trace (snd (main args env st))) =
             sent_requests (trace st)).
Proof.
  intros Hempty. split.
  - destruct args as [model prompt provider setup listing file].
    simpl in Hempty. subst prompt. reflexivity.
  - intros config provider keys st1 Hreach.
    pose proof (main_by_source _ _ _ _ _ _ _ Hreach) as Hmain.
    split.
    + rewrite Hmain. unfold source_text, selected_source.
      rewrite Hempty. cbn [supplied String.eqb].
      destruct (supplied (arg_file args)) as [path|].
      * cbn [rbind]. now destruct (read_text env path).
      * now destruct (stdin_isatty env).
    + intros Hnothing.
      assert (Hhelp : main args env st = (Ok tt, log st1 [PrintHelp])).
      { rewrite Hmain. destruct Hnothing as [-> | ->]; [reflexivity|].
        now apply main_send_nothing; right. }
      rewrite Hhelp. split; [reflexivity|]. simpl.
      rewrite sent_requests_app. simpl. rewrite app_nil_r.
      destruct Hreach as [[_ Hconfig _ _] _ _].
      exact (load_config_sends_nothing _ _ _ _ Hconfig).
Qed.

(** The empty literal with a file: the run is the run without the
    literal, and the prompt is the contents of the file.  The empty
    literal alone on a terminal: the help is printed. *)
Lemma empty_prompt_argument_is_absent_witness :
  main (command (Some "") (Some "notes.txt"))
    (all_sources (chat_answer (VStr "X"))) (configured openrouter_keys) =
    main (command None (Some "notes.txt"))
      (all_sources (chat_answer (VStr "X"))) (configured openrouter_keys)
  /\
  main (command (Some "") (Some "notes.txt"))
    (all_sources (chat_answer (VStr "X"))) (configured openrouter_keys) =
    main_send (command (Some "") (Some "notes.txt"))
      DEFAULT_CONFIG "openrouter" openrouter_keys (VStr "text of the file")
      (all_sources (chat_answer (VStr "X"))) (configured openrouter_keys)
  /\
  main (command (Some "") None) offline (configured openrouter_keys) =
    (Ok tt, log (configured openrouter_keys) [PrintHelp]).
Proof.
  destruct (empty_prompt_argument_is_absent
              (command (Some "") (Some "notes.txt"))
              (all_sources (chat_answer (VStr "X")))
              (configured openrouter_keys) eq_refl) as [Hsame Hfile].
  destruct (empty_prompt_argument_is_absent
              (command (Some "") None) offline
              (configured openrouter_keys) eq_refl) as [_ Hnone].
  split; [exact Hsame|]. split.
  - exact (proj1 (Hfile _ _ _ _ (sample_reaches_prompt _ _ _))).
  - exact (proj1 (proj2 (Hnone _ _ _ _ (sample_reaches_prompt _ _ _))
                    (or_introl eq_refl))).
Defined.
